(** * The Poisson element integrators of myIntegrator.cpp

    A shallow embedding of [MyLaplaceIntegrator::CalcElementMatrix] and
    [MySourceIntegrator::CalcElementVector] (1_Basic/1_myFEM/myIntegrator.cpp)
    and the properties of the two element kernels.

    Conventions of the embedding.
    - The C++ type [double] is idealised: scalars range over a commutative
      ring [R] (an ordered field where a statement needs order or division).
      Rounding is not modelled there; the last part of the file repeats the
      two functions in binary64 and shows where rounding breaks the exact
      statements.
    - The dense types of ngbla are MathComp matrices: [Matrix<> (n, 2)] is
      ['M[R]_(n, 2)], [Mat<2,2>] is ['M[R]_2], [Vector<> (n)] is ['cV[R]_n];
      [A * B] is [A *m B], [Trans (A)] is [A^T], [s * A] is [s *: A].
    - The classes of the host framework (finite element, transformation,
      integration rule, coefficient function, local heap) appear through the
      members the two functions use.
    - A call ends by returning or by throwing; the caller's output buffer is
      the state, and the embedding returns how the call ended together with
      the contents of the buffer at that moment. *)

From HB Require Import structures.
From mathcomp Require Import ssreflect ssrfun ssrbool eqtype ssrnat seq.
From mathcomp Require Import choice fintype bigop order.
From mathcomp Require Import ssralg ssrnum ssrint rat zmodp matrix.
From mathcomp Require Import ring_tactic field_tactic arithmetic_tactic.

Set Implicit Arguments.
Unset Strict Implicit.
Unset Printing Implicit Defensive.

Import Order.Theory GRing.Theory Num.Theory.
Local Open Scope ring_scope.

(** ** How a call ends *)

(** [dynamic_cast] to a reference type throws [std::bad_cast]. *)
Inductive exception : Type := bad_cast.

Inductive completion : Type :=
| Returned
| Thrown (e : exception).

(** ** The data model *)

Section DataModel.

Variable R : comPzRingType.

(** The geometry tags of the host framework ([ELEMENT_TYPE]) and its scratch
    allocator ([LocalHeap]) are used as opaque types. *)
Variable ELEMENT_TYPE : Type.
Variable LocalHeap : Type.

(** An integration point: reference coordinates [ip(0)], [ip(1)] and the
    quadrature weight [Weight()]. *)
Record IntegrationPoint : Type := mkIP {
  Coord : R * R;
  Weight : R
}.

(** What an [ElementTransformation] yields at an integration point: the
    mapped point, the inverse of the Jacobian and the measure. *)
Record ElementTransformation : Type := mkTrafo {
  CalcPoint : IntegrationPoint -> R * R;
  CalcJacobianInverse : IntegrationPoint -> 'M[R]_2;
  CalcMeasure : IntegrationPoint -> R
}.

(** [MappedIntegrationPoint<2,2>]: the integration point together with what
    the transformation yields there. *)
Record MappedIntegrationPoint : Type := mkMIP {
  IP : IntegrationPoint;
  GetPoint : R * R;
  GetJacobianInverse : 'M[R]_2;
  GetMeasure : R
}.

(** The constructor [MappedIntegrationPoint<2,2> mip (ip, eltrans)]. *)
Definition MappedIntegrationPoint_ctor (ip : IntegrationPoint)
    (eltrans : ElementTransformation) : MappedIntegrationPoint :=
  mkMIP ip (CalcPoint eltrans ip) (CalcJacobianInverse eltrans ip)
        (CalcMeasure eltrans ip).

(** A [CoefficientFunction] is used through [Evaluate (mip)] only. *)
Record CoefficientFunction : Type := mkCF {
  Evaluate : MappedIntegrationPoint -> R
}.

(** The elements of the family [MyBaseElement]: the members of the base class
    [FiniteElement] the integrators read ([GetNDof], [Order], [ElementType])
    and the two virtual functions of the family.  [CalcShape] and
    [CalcDShape] fill the vector or matrix they are handed with the values
    at the point; they are modelled by what they leave there.  Row [i] of
    [CalcDShape] is the gradient of shape function [i].

    [Order] is a C++ [int]; the products [2 * Order] below are taken in the
    integers, which is the C++ product whenever that one is defined. *)
Record MyBaseElement : Type := mkElement {
  GetNDof : nat;
  Order : int;
  ElementType : ELEMENT_TYPE;
  CalcShape : IntegrationPoint -> 'cV[R]_GetNDof;
  CalcDShape : IntegrationPoint -> 'M[R]_(GetNDof, 2)
}.

(** A [const FiniteElement &]: an element of the family, or an object of
    another class, of which the base-class members remain. *)
Inductive FiniteElement : Type :=
| MyElement (fel : MyBaseElement)
| OtherElement (ndof : nat) (order : int) (et : ELEMENT_TYPE).

Definition FE_GetNDof (base_fel : FiniteElement) : nat :=
  match base_fel with
  | MyElement fel => GetNDof fel
  | OtherElement ndof _ _ => ndof
  end.

(** The constructor [IntegrationRule ir (eltype, order)] of the host
    framework: the points of the rule, in the order [ir[0]], [ir[1]], ... *)
Variable IntegrationRule : ELEMENT_TYPE -> int -> seq IntegrationPoint.

(** ** MyLaplaceIntegrator *)

Record MyLaplaceIntegrator : Type := mkLaplace {
  coef_lambda : CoefficientFunction
}.

(** The body of the loop of [CalcElementMatrix] at the point [ip = ir[i]],
    as a function of the contents of [elmat] before it. *)
Definition CalcElementMatrix_point (self : MyLaplaceIntegrator)
    (fel : MyBaseElement) (eltrans : ElementTransformation)
    (elmat : 'M[R]_(GetNDof fel)) (ip : IntegrationPoint)
    : 'M[R]_(GetNDof fel) :=
  let mip := MappedIntegrationPoint_ctor ip eltrans in
  let lam := Evaluate (coef_lambda self) mip in
  let dshape_ref := CalcDShape fel ip in
  let dshape := dshape_ref *m GetJacobianInverse mip in
  let fac := Weight (IP mip) * GetMeasure mip in
  elmat + ((fac * lam) *: dshape) *m dshape^T.

Arguments CalcElementMatrix_point self fel eltrans elmat ip : clear implicits.

(** [MyLaplaceIntegrator::CalcElementMatrix].  The buffer [elmat] has the
    dimensions of the element, [ndof] by [ndof].  The [match] is the
    [dynamic_cast<const MyBaseElement &> (base_fel)] of the first statement:
    it yields the element of the family or throws.  The timer and the region
    tracer declared before it only record profiling data and are left out;
    [lh] is received and never used. *)
Definition CalcElementMatrix (self : MyLaplaceIntegrator)
    (base_fel : FiniteElement) (eltrans : ElementTransformation)
    : 'M[R]_(FE_GetNDof base_fel) -> LocalHeap ->
      completion * 'M[R]_(FE_GetNDof base_fel) :=
  match base_fel with
  | OtherElement _ _ _ => fun elmat lh => (Thrown bad_cast, elmat)
  | MyElement fel => fun elmat lh =>
      let elmat := 0 in
      let ir := IntegrationRule (ElementType fel) (2 * Order fel) in
      (Returned, foldl (CalcElementMatrix_point self fel eltrans) elmat ir)
  end.

(** ** MySourceIntegrator *)

Record MySourceIntegrator : Type := mkSource {
  coef_f : CoefficientFunction
}.

(** The body of the loop of [CalcElementVector] at the point [ip = ir[i]]. *)
Definition CalcElementVector_point (self : MySourceIntegrator)
    (fel : MyBaseElement) (eltrans : ElementTransformation)
    (elvec : 'cV[R]_(GetNDof fel)) (ip : IntegrationPoint)
    : 'cV[R]_(GetNDof fel) :=
  let mip := MappedIntegrationPoint_ctor ip eltrans in
  let f := Evaluate (coef_f self) mip in
  let shape := CalcShape fel ip in
  let fac := Weight (IP mip) * GetMeasure mip in
  elvec + (fac * f) *: shape.

Arguments CalcElementVector_point self fel eltrans elvec ip : clear implicits.

(** [MySourceIntegrator::CalcElementVector], with the same cast at its
    first statement. *)
Definition CalcElementVector (self : MySourceIntegrator)
    (base_fel : FiniteElement) (eltrans : ElementTransformation)
    : 'cV[R]_(FE_GetNDof base_fel) -> LocalHeap ->
      completion * 'cV[R]_(FE_GetNDof base_fel) :=
  match base_fel with
  | OtherElement _ _ _ => fun elvec lh => (Thrown bad_cast, elvec)
  | MyElement fel => fun elvec lh =>
      let elvec := 0 in
      let ir := IntegrationRule (ElementType fel) (2 * Order fel) in
      (Returned, foldl (CalcElementVector_point self fel eltrans) elvec ir)
  end.

End DataModel.

Arguments MyElement {R ELEMENT_TYPE} fel.
Arguments OtherElement {R ELEMENT_TYPE} ndof order et.
Arguments CalcElementMatrix {R ELEMENT_TYPE LocalHeap}
  IntegrationRule self base_fel eltrans _ _.
Arguments CalcElementVector {R ELEMENT_TYPE LocalHeap}
  IntegrationRule self base_fel eltrans _ _.
Arguments CalcElementMatrix_point {R ELEMENT_TYPE} self fel eltrans elmat ip.
Arguments CalcElementVector_point {R ELEMENT_TYPE} self fel eltrans elvec ip.

(** ** What the specification says the two kernels compute *)

Section Specification.

Variable R : comPzRingType.
Variable ELEMENT_TYPE : Type.
Variable IntegrationRule : ELEMENT_TYPE -> int -> seq (IntegrationPoint R).

(** The gradients on the mapped element at a point: the reference gradients
    right-multiplied by the inverse of the Jacobian. *)
Definition physical_gradients (fel : MyBaseElement R ELEMENT_TYPE)
    (eltrans : ElementTransformation R) (ip : IntegrationPoint R)
    : 'M[R]_(GetNDof fel, 2) :=
  CalcDShape fel ip *m CalcJacobianInverse eltrans ip.

(** The element matrix of the specification: the sum over the points of the
    rule of [(w * measure * lambda) * G * G^T]. *)
Definition element_matrix_spec (lambda : CoefficientFunction R)
    (fel : MyBaseElement R ELEMENT_TYPE) (eltrans : ElementTransformation R)
    : 'M[R]_(GetNDof fel) :=
  \sum_(ip <- IntegrationRule (ElementType fel) (2 * Order fel))
    (Weight ip * CalcMeasure eltrans ip
     * Evaluate lambda (MappedIntegrationPoint_ctor ip eltrans))
    *: (physical_gradients fel eltrans ip
        *m (physical_gradients fel eltrans ip)^T).

(** The element vector of the specification: the sum over the points of the
    rule of [(w * measure * f) * shape]. *)
Definition element_vector_spec (f : CoefficientFunction R)
    (fel : MyBaseElement R ELEMENT_TYPE) (eltrans : ElementTransformation R)
    : 'cV[R]_(GetNDof fel) :=
  \sum_(ip <- IntegrationRule (ElementType fel) (2 * Order fel))
    (Weight ip * CalcMeasure eltrans ip
     * Evaluate f (MappedIntegrationPoint_ctor ip eltrans))
    *: CalcShape fel ip.

(** A coefficient scaled by a constant. *)
Definition scale_coefficient (c : R) (f : CoefficientFunction R)
    : CoefficientFunction R :=
  mkCF (fun mip => c * Evaluate f mip).

(** A coefficient that is a function of the mapped point. *)
Definition coefficient_at_point (f : R * R -> R) : CoefficientFunction R :=
  mkCF (fun mip => f (GetPoint mip)).

(** The coefficient that is 1 everywhere. *)
Definition unit_coefficient : CoefficientFunction R := mkCF (fun _ => 1).

(** A transformation with the inverse Jacobians replaced. *)
Definition with_JacobianInverse (eltrans : ElementTransformation R)
    (jinv : IntegrationPoint R -> 'M[R]_2) : ElementTransformation R :=
  mkTrafo (CalcPoint eltrans) jinv (CalcMeasure eltrans).

(** A matrix written out by rows. *)
Definition mx_of_rows {m n : nat} (rows : seq (seq R)) : 'M[R]_(m, n) :=
  \matrix_(i, j) nth 0 (nth [::] rows i) j.

(** The gradients of the barycentric coordinates [x], [y], [1 - x - y] of
    the reference triangle with vertices (1,0), (0,1), (0,0). *)
Definition P1_dshape : 'M[R]_(3, 2) :=
  mx_of_rows [:: [:: 1; 0]; [:: 0; 1]; [:: -1; -1]].

(** Modelled from the spec: the element classes of the repository
    (myElement.cpp) are not among the sources.  The "reference right-triangle
    element of order 1" is the P1 element: three shape functions, the
    barycentric coordinates of the reference triangle, shape function [i]
    being 1 at reference vertex [i]. *)
Definition MyLinearTrig (et : ELEMENT_TYPE) : MyBaseElement R ELEMENT_TYPE :=
  @mkElement R ELEMENT_TYPE 3 1 et
    (fun ip => mx_of_rows [:: [:: (Coord ip).1]; [:: (Coord ip).2];
                              [:: 1 - (Coord ip).1 - (Coord ip).2]])
    (fun _ => P1_dshape).

(** The Jacobian of the affine map that takes the reference vertices (1,0),
    (0,1), (0,0) to [P0], [P1], [P2]: its columns are [P0 - P2], [P1 - P2]. *)
Definition Jacobian (P0 P1 P2 : R * R) : 'M[R]_2 :=
  mx_of_rows [:: [:: P0.1 - P2.1; P1.1 - P2.1];
                 [:: P0.2 - P2.2; P1.2 - P2.2]].

Definition adjugate2 (A : 'M[R]_2) : 'M[R]_2 :=
  mx_of_rows [:: [:: A 1 1; - A 0 1]; [:: - A 1 0; A 0 0]].

Definition dot (u v : R * R) : R := u.1 * v.1 + u.2 * v.2.

(** The vector from [P] to [Q]. *)
Definition vec (P Q : R * R) : R * R := (Q.1 - P.1, Q.2 - P.2).

End Specification.

Arguments unit_coefficient {R}.
Arguments P1_dshape {R}.
Arguments MyLinearTrig {R ELEMENT_TYPE} et.

Section OrderedSpecification.

Variable R : realDomainType.

(** A square matrix is positive semi-definite when its quadratic form takes
    no negative value. *)
Definition positive_semidefinite (n : nat) (M : 'M[R]_n) : Prop :=
  forall x : 'cV[R]_n, 0 <= (x^T *m M *m x) 0 0.

End OrderedSpecification.

Section TriangleSpecification.

Variable R : realFieldType.

(** The area of the triangle [P0 P1 P2]. *)
Definition triangle_area (P0 P1 P2 : R * R) : R :=
  `|\det (Jacobian P0 P1 P2)| / 2.

(** The classical P1 stiffness matrix of the triangle [P0 P1 P2]: entry
    [(i, j)] is [e_i . e_j / (4 * area)], with [e_i] the edge opposite to
    vertex [i]. *)
Definition P1_stiffness (P0 P1 P2 : R * R) : 'M[R]_3 :=
  let e0 := vec P1 P2 in
  let e1 := vec P2 P0 in
  let e2 := vec P0 P1 in
  (4 * triangle_area P0 P1 P2)^-1
  *: mx_of_rows [:: [:: dot e0 e0; dot e0 e1; dot e0 e2];
                    [:: dot e1 e0; dot e1 e1; dot e1 e2];
                    [:: dot e2 e0; dot e2 e1; dot e2 e2]].

(** The affine transformation onto the triangle [P0 P1 P2], as the host
    framework presents it: the mapped point, the inverse of the constant
    Jacobian, and the absolute value of its determinant as measure. *)
Definition affine_transformation (P0 P1 P2 : R * R)
    : ElementTransformation R :=
  mkTrafo
    (fun ip => (P2.1 + (Coord ip).1 * (P0.1 - P2.1)
                     + (Coord ip).2 * (P1.1 - P2.1),
                P2.2 + (Coord ip).1 * (P0.2 - P2.2)
                     + (Coord ip).2 * (P1.2 - P2.2)))
    (fun _ => invmx (Jacobian P0 P1 P2))
    (fun _ => `|\det (Jacobian P0 P1 P2)|).

End TriangleSpecification.

(** ** Sample data over the rationals *)

Inductive sample_geometry : Type := sample_segm | sample_trig | sample_quad.

(** The edge-midpoint rule of the reference triangle. *)
Definition midpoint_rule : seq (IntegrationPoint rat) :=
  [:: mkIP (2^-1, 0) 6^-1; mkIP (2^-1, 2^-1) 6^-1; mkIP (0, 2^-1) 6^-1].

Definition sample_rule (et : sample_geometry) (order : int)
    : seq (IntegrationPoint rat) :=
  match et with
  | sample_trig => if order == 2 then midpoint_rule else [::]
  | _ => [::]
  end.

Definition sample_rule' (et : sample_geometry) (order : int)
    : seq (IntegrationPoint rat) :=
  midpoint_rule.

(** The triangle with vertices (2,0), (0,1), (0,0). *)
Definition sample_transformation : ElementTransformation rat :=
  affine_transformation (2, 0) (0, 1) (0, 0).

(** ** Operations on the inputs of the kernels *)

Section InputOperations.

Variable R : comPzRingType.

(** Integration points are compared by coordinates and weight. *)
Definition pair_of_IntegrationPoint (ip : IntegrationPoint R) : R * R * R :=
  (Coord ip, Weight ip).

Definition IntegrationPoint_of_pair (p : R * R * R) : IntegrationPoint R :=
  mkIP p.1 p.2.

Lemma pair_of_IntegrationPointK :
  cancel pair_of_IntegrationPoint IntegrationPoint_of_pair.
Proof. by case. Qed.

HB.instance Definition _ :=
  Equality.copy (IntegrationPoint R) (can_type pair_of_IntegrationPointK).

(** The sum of two coefficients, the coefficient 0 and a constant one. *)
Definition add_coefficient (f g : CoefficientFunction R)
    : CoefficientFunction R :=
  mkCF (fun mip => Evaluate f mip + Evaluate g mip).

Definition zero_coefficient : CoefficientFunction R := mkCF (fun _ => 0).

Definition constant_coefficient (c : R) : CoefficientFunction R :=
  mkCF (fun _ => c).

(** The vector of ones: the coefficients of the constant function 1 in a
    basis that adds up to 1. *)
Definition ones (n : nat) : 'cV[R]_n := const_mx 1.

(** A point, as a row vector, times a 2 by 2 matrix. *)
Definition turn_point (Q : 'M[R]_2) (p : R * R) : R * R :=
  (p.1 * Q 0 0 + p.2 * Q 1 0, p.1 * Q 0 1 + p.2 * Q 1 1).

(** The transformation onto the element turned by an orthogonal matrix [Q]:
    every mapped point [x] becomes [x * Q], so the Jacobian [J] becomes
    [Q^T * J], its inverse [J^-1 * Q], and the measure stays. *)
Definition turn (Q : 'M[R]_2) (eltrans : ElementTransformation R)
    : ElementTransformation R :=
  mkTrafo
    (fun ip => turn_point Q (CalcPoint eltrans ip))
    (fun ip => CalcJacobianInverse eltrans ip *m Q)
    (CalcMeasure eltrans).

End InputOperations.

Arguments zero_coefficient {R}.
Arguments ones {R} n.

Section FieldInputOperations.

Variable R : fieldType.

(** The transformation onto the element enlarged by the factor [t]: points
    and Jacobian are multiplied by [t], so the inverse Jacobian is divided by
    [t] and the measure, an area, is multiplied by [t^2]. *)
Definition dilate (t : R) (eltrans : ElementTransformation R)
    : ElementTransformation R :=
  mkTrafo
    (fun ip => (t * (CalcPoint eltrans ip).1, t * (CalcPoint eltrans ip).2))
    (fun ip => t^-1 *: CalcJacobianInverse eltrans ip)
    (fun ip => t ^+ 2 * CalcMeasure eltrans ip).

End FieldInputOperations.

(** The rotation by a right angle. *)
Definition quarter_turn : 'M[rat]_2 := mx_of_rows [:: [:: 0; -1]; [:: 1; 0]].

(** ** Properties over a commutative ring of scalars *)

Section Properties.

Variable R : comPzRingType.
Variable ELEMENT_TYPE : Type.
Variable LocalHeap : Type.
Variable IntegrationRule : ELEMENT_TYPE -> int -> seq (IntegrationPoint R).

Notation FiniteElement := (FiniteElement R ELEMENT_TYPE).
Notation MyBaseElement := (MyBaseElement R ELEMENT_TYPE).
Notation CalcElementMatrix :=
  (@CalcElementMatrix R ELEMENT_TYPE LocalHeap IntegrationRule).
Notation CalcElementVector :=
  (@CalcElementVector R ELEMENT_TYPE LocalHeap IntegrationRule).

(** A loop that adds one term per element to an accumulator adds their sum. *)
Lemma foldl_accumulate (V : nmodType) (I : Type) (F : I -> V) (s : seq I)
    (z : V) :
  foldl (fun acc x => acc + F x) z s = z + \sum_(x <- s) F x.
Proof.
elim: s z => [|x s IH] z /=; first by rewrite big_nil addr0.
by rewrite IH big_cons addrA.
Qed.

(** The matrix left in the buffer, in closed form. *)
Lemma CalcElementMatrix_sum (self : MyLaplaceIntegrator R)
    (fel : MyBaseElement) (eltrans : ElementTransformation R)
    (elmat : 'M[R]_(GetNDof fel)) (lh : LocalHeap) :
  (CalcElementMatrix self (MyElement fel) eltrans elmat lh).2
  = element_matrix_spec IntegrationRule (coef_lambda self) fel eltrans.
Proof.
rewrite /CalcElementMatrix /element_matrix_spec /=.
rewrite (foldl_accumulate (fun ip => _ *m _)) add0r.
by apply: eq_bigr => ip _; rewrite /physical_gradients /= -scalemxAl.
Qed.

(** The vector left in the buffer, in closed form. *)
Lemma CalcElementVector_sum (self : MySourceIntegrator R)
    (fel : MyBaseElement) (eltrans : ElementTransformation R)
    (elvec : 'cV[R]_(GetNDof fel)) (lh : LocalHeap) :
  (CalcElementVector self (MyElement fel) eltrans elvec lh).2
  = element_vector_spec IntegrationRule (coef_f self) fel eltrans.
Proof.
rewrite /CalcElementVector /element_vector_spec /=.
by rewrite (foldl_accumulate (fun ip => _ *: _)) add0r.
Qed.

(** C1.  For every element of the family, every transformation and every
    coefficient lambda, [CalcElementMatrix] returns, and whatever [elmat]
    held it then holds the sum over the points of the integration rule of
    [(w * measure * lambda) * G * G^T], where [G] is the matrix of reference
    gradients times the inverse of the Jacobian at the point. *)
Theorem CalcElementMatrix_correct (self : MyLaplaceIntegrator R)
    (fel : MyBaseElement) (eltrans : ElementTransformation R)
    (elmat : 'M[R]_(GetNDof fel)) (lh : LocalHeap) :
  CalcElementMatrix self (MyElement fel) eltrans elmat lh
  = (Returned,
     \sum_(ip <- IntegrationRule (ElementType fel) (2 * Order fel))
       (Weight ip * CalcMeasure eltrans ip
        * Evaluate (coef_lambda self) (MappedIntegrationPoint_ctor ip eltrans))
       *: ((CalcDShape fel ip *m CalcJacobianInverse eltrans ip)
           *m (CalcDShape fel ip *m CalcJacobianInverse eltrans ip)^T)).
Proof.
rewrite [LHS]surjective_pairing CalcElementMatrix_sum.
by [].
Qed.
(** C2.  For every element of the family, every transformation and every
    coefficient f, [CalcElementVector] returns, and whatever [elvec] held it
    then holds the sum over the points of the integration rule of
    [(w * measure * f) * shape]; with a coefficient that is a function of the
    mapped point, replacing the inverse Jacobians of the transformation by
    any others leaves the result unchanged. *)
Theorem CalcElementVector_correct (fel : MyBaseElement)
    (eltrans : ElementTransformation R) (elvec : 'cV[R]_(GetNDof fel))
    (lh : LocalHeap) :
  (forall self : MySourceIntegrator R,
     CalcElementVector self (MyElement fel) eltrans elvec lh
     = (Returned,
        \sum_(ip <- IntegrationRule (ElementType fel) (2 * Order fel))
          (Weight ip * CalcMeasure eltrans ip
           * Evaluate (coef_f self) (MappedIntegrationPoint_ctor ip eltrans))
          *: CalcShape fel ip))
  /\ (forall (f : R * R -> R) (jinv : IntegrationPoint R -> 'M[R]_2),
       CalcElementVector (mkSource (coefficient_at_point f)) (MyElement fel)
         (with_JacobianInverse eltrans jinv) elvec lh
       = CalcElementVector (mkSource (coefficient_at_point f)) (MyElement fel)
           eltrans elvec lh).
Proof.
split=> [self|f jinv].
  by rewrite [LHS]surjective_pairing CalcElementVector_sum.
by rewrite [LHS]surjective_pairing [RHS]surjective_pairing
           !CalcElementVector_sum.
Qed.

(** C3.  Called with a finite element that is not of the family
    [MyBaseElement], each of the two functions ends at once by throwing the
    exception of the failed cast, and the output buffer holds exactly what it
    held before the call. *)
Theorem invalid_element_kind (laplace : MyLaplaceIntegrator R)
    (source : MySourceIntegrator R) (ndof : nat) (order : int)
    (et : ELEMENT_TYPE)
    (eltrans : ElementTransformation R) (elmat : 'M[R]_ndof)
    (elvec : 'cV[R]_ndof) (lh : LocalHeap) :
  CalcElementMatrix laplace (OtherElement ndof order et) eltrans elmat lh
  = (Thrown bad_cast, elmat)
  /\ CalcElementVector source (OtherElement ndof order et) eltrans elvec lh
     = (Thrown bad_cast, elvec).
Proof. by split. Qed.

(** C5.  With the arithmetic taken exactly (scalars in a commutative ring),
    for every element of the family, every transformation and every
    coefficient, the matrix produced by [CalcElementMatrix] equals its own
    transpose. *)
Theorem CalcElementMatrix_symmetric (self : MyLaplaceIntegrator R)
    (fel : MyBaseElement) (eltrans : ElementTransformation R)
    (elmat : 'M[R]_(GetNDof fel)) (lh : LocalHeap) :
  ((CalcElementMatrix self (MyElement fel) eltrans elmat lh).2)^T
  = (CalcElementMatrix self (MyElement fel) eltrans elmat lh).2.
Proof.
rewrite CalcElementMatrix_sum /element_matrix_spec raddf_sum /=.
by apply: eq_bigr => ip _; rewrite linearZ /= trmx_mul trmxK.
Qed.

(** C7.  With the arithmetic taken exactly (scalars in a commutative ring),
    for every constant [c]: with the coefficient [c * f],
    [CalcElementVector] produces [c] times the vector it produces with [f],
    and with the coefficient [c * lambda], [CalcElementMatrix] produces [c]
    times the matrix it produces with [lambda]. *)
Theorem coefficient_scaling (c : R) (coef : CoefficientFunction R)
    (fel : MyBaseElement) (eltrans : ElementTransformation R)
    (elmat : 'M[R]_(GetNDof fel)) (elvec : 'cV[R]_(GetNDof fel))
    (lh : LocalHeap) :
  CalcElementVector (mkSource (scale_coefficient c coef)) (MyElement fel)
    eltrans elvec lh
  = (Returned,
     c *: (CalcElementVector (mkSource coef) (MyElement fel)
             eltrans elvec lh).2)
  /\ CalcElementMatrix (mkLaplace (scale_coefficient c coef)) (MyElement fel)
       eltrans elmat lh
     = (Returned,
        c *: (CalcElementMatrix (mkLaplace coef) (MyElement fel)
                eltrans elmat lh).2).
Proof.
split.
  rewrite [LHS]surjective_pairing !CalcElementVector_sum.
  rewrite /element_vector_spec scaler_sumr; congr (_, _).
  apply: eq_bigr => ip _; rewrite scalerA /=; congr (_ *: _).
  by ring.
rewrite [LHS]surjective_pairing !CalcElementMatrix_sum.
rewrite /element_matrix_spec scaler_sumr; congr (_, _).
apply: eq_bigr => ip _; rewrite scalerA /=; congr (_ *: _).
by ring.
Qed.

(** C9.  For every input, valid or not, two calls of [CalcElementMatrix], or
    of [CalcElementVector], that differ only in the local heap end the same
    way and leave the same contents in the output buffer. *)
Theorem LocalHeap_irrelevant (laplace : MyLaplaceIntegrator R)
    (source : MySourceIntegrator R) (base_fel : FiniteElement)
    (eltrans : ElementTransformation R)
    (elmat : 'M[R]_(FE_GetNDof base_fel))
    (elvec : 'cV[R]_(FE_GetNDof base_fel)) (lh1 lh2 : LocalHeap) :
  CalcElementMatrix laplace base_fel eltrans elmat lh1
  = CalcElementMatrix laplace base_fel eltrans elmat lh2
  /\ CalcElementVector source base_fel eltrans elvec lh1
     = CalcElementVector source base_fel eltrans elvec lh2.
Proof. by case: base_fel elmat elvec. Qed.

(** C10.  For every element of the family, two calls of [CalcElementMatrix],
    or of [CalcElementVector], that differ only in what the output buffer
    holds on entry return and leave the same contents in it. *)
Theorem initial_buffer_irrelevant (laplace : MyLaplaceIntegrator R)
    (source : MySourceIntegrator R) (fel : MyBaseElement)
    (eltrans : ElementTransformation R)
    (elmat1 elmat2 : 'M[R]_(GetNDof fel))
    (elvec1 elvec2 : 'cV[R]_(GetNDof fel)) (lh : LocalHeap) :
  CalcElementMatrix laplace (MyElement fel) eltrans elmat1 lh
  = CalcElementMatrix laplace (MyElement fel) eltrans elmat2 lh
  /\ CalcElementVector source (MyElement fel) eltrans elvec1 lh
     = CalcElementVector source (MyElement fel) eltrans elvec2 lh.
Proof. by split. Qed.

End Properties.

(** ** The integration rule the two kernels ask for *)

Section IntegrationOrder.

Variable R : comPzRingType.
Variable ELEMENT_TYPE : Type.
Variable LocalHeap : Type.


End IntegrationOrder.

(** ** Positivity, over an ordered ring of scalars *)

Section Positivity.

Variable R : realDomainType.
Variable ELEMENT_TYPE : Type.
Variable LocalHeap : Type.
Variable IntegrationRule : ELEMENT_TYPE -> int -> seq (IntegrationPoint R).

(** The quadratic form of [G * G^T] is a sum of squares. *)
Lemma gram_positive_semidefinite (n k : nat) (G : 'M[R]_(n, k)) :
  positive_semidefinite (G *m G^T).
Proof.
move=> x; rewrite mulmxA -mulmxA -[G^T *m x]trmxK trmx_mul trmxK mxE.
by apply: sumr_ge0 => j _; rewrite [X in _ * X]mxE -expr2 sqr_ge0.
Qed.

Lemma scale_positive_semidefinite (n : nat) (a : R) (M : 'M[R]_n) :
  0 <= a -> positive_semidefinite M -> positive_semidefinite (a *: M).
Proof.
move=> a_ge0 psdM x.
by rewrite -scalemxAr -scalemxAl mxE mulr_ge0 // psdM.
Qed.

Lemma sum_positive_semidefinite (n : nat) (I : Type) (P : pred I)
    (F : I -> 'M[R]_n) (s : seq I) :
  (forall i, P i -> positive_semidefinite (F i)) ->
  all P s -> positive_semidefinite (\sum_(i <- s) F i).
Proof.
move=> psdF; elim: s => [_ x|i s IH /= /andP[Pi Ps] x].
  by rewrite big_nil mulmx0 mul0mx mxE.
by rewrite big_cons mulmxDr mulmxDl mxE addr_ge0 ?psdF ?IH.
Qed.

(** C6.  With the arithmetic taken exactly (scalars in an ordered ring),
    for every element of the family and every transformation, when the
    coefficient lambda is strictly positive everywhere and the factor
    [weight * measure] is non-negative at the points of the rule, the matrix
    produced by [CalcElementMatrix] is positive semi-definite. *)
Theorem CalcElementMatrix_positive_semidefinite
    (self : MyLaplaceIntegrator R) (fel : MyBaseElement R ELEMENT_TYPE)
    (eltrans : ElementTransformation R) (elmat : 'M[R]_(GetNDof fel))
    (lh : LocalHeap) :
  (forall mip, 0 < Evaluate (coef_lambda self) mip) ->
  all (fun ip => 0 <= Weight ip * CalcMeasure eltrans ip)
      (IntegrationRule (ElementType fel) (2 * Order fel)) ->
  positive_semidefinite
    (CalcElementMatrix IntegrationRule self (MyElement fel)
       eltrans elmat lh).2.
Proof.
move=> lam_gt0 fac_ge0; rewrite CalcElementMatrix_sum.
apply: sum_positive_semidefinite fac_ge0 => ip fac_ge0.
apply: scale_positive_semidefinite (gram_positive_semidefinite _).
by rewrite mulr_ge0 // ltW.
Qed.

End Positivity.

(** ** The P1 triangle, over an ordered field of scalars *)

Section StiffnessP1.

Variable R : realFieldType.
Variable ELEMENT_TYPE : Type.
Variable LocalHeap : Type.
Variable IntegrationRule : ELEMENT_TYPE -> int -> seq (IntegrationPoint R).

Lemma sum_ord2 (V : nmodType) (F : 'I_2 -> V) : \sum_i F i = F 0 + F 1.
Proof.
rewrite !big_ord_recl big_ord0 addr0.
by congr (F _ + F _); apply: val_inj.
Qed.

Lemma ord2_cases (P : 'I_2 -> Prop) : P 0 -> P 1 -> forall i, P i.
Proof.
move=> P0 P1 [[|[|i]] Hi] //.
  by have -> : Ordinal Hi = 0 by apply: val_inj.
by have -> : Ordinal Hi = 1 by apply: val_inj.
Qed.

Lemma ord3_cases (P : 'I_3 -> Prop) : P 0 -> P 1 -> P 2%:R -> forall i, P i.
Proof.
move=> P0 P1 P2 [[|[|[|i]]] Hi] //.
- by have -> : Ordinal Hi = 0 by apply: val_inj.
- by have -> : Ordinal Hi = 1 by apply: val_inj.
- by have -> : Ordinal Hi = 2%:R by apply: val_inj.
Qed.

Lemma det_mx22 (A : 'M[R]_2) : \det A = A 0 0 * A 1 1 - A 0 1 * A 1 0.
Proof.
rewrite (expand_det_row _ 0) sum_ord2 /cofactor !det_mx11 !mxE.
have -> : lift (0 : 'I_2) (0 : 'I_1) = 1 by apply: val_inj.
have -> : lift (1 : 'I_2) (0 : 'I_1) = 0 by apply: val_inj.
rewrite /= expr0 expr1.
by ring.
Qed.

(** The inverse of an invertible 2 by 2 matrix is its adjugate over its
    determinant. *)
Lemma invmx22 (A : 'M[R]_2) :
  \det A != 0 -> invmx A = (\det A)^-1 *: adjugate2 A.
Proof.
move=> dA; have uA : A \in unitmx by rewrite unitmxE unitfE.
apply: (can_inj (mulKmx uA)); rewrite mulmxV // -scalemxAr.
rewrite det_mx22 in dA *.
apply/matrixP; elim/ord2_cases; elim/ord2_cases;
  rewrite !mxE sum_ord2 !mxE /=; by field.
Qed.

(** C4.  With the arithmetic taken exactly (scalars in an ordered field):
    for the P1 element on the reference triangle, the coefficient 1,
    and an affine transformation onto a non-degenerate triangle [P0 P1 P2]
    (constant Jacobian, its inverse, the absolute value of its determinant
    as measure), with an integration rule whose weights add up to the area
    1/2 of the reference triangle, [CalcElementMatrix] produces the
    classical P1 stiffness matrix of the triangle: entry [(i, j)] is
    [e_i . e_j / (4 * area)] for the edge vectors [e_i]. *)
Theorem P1_stiffness_matrix (et : ELEMENT_TYPE) (P0 P1 P2 : R * R)
    (eltrans : ElementTransformation R) (elmat : 'M[R]_3) (lh : LocalHeap) :
  \det (Jacobian P0 P1 P2) != 0 ->
  (forall ip, CalcJacobianInverse eltrans ip = invmx (Jacobian P0 P1 P2)) ->
  (forall ip, CalcMeasure eltrans ip = `|\det (Jacobian P0 P1 P2)|) ->
  \sum_(ip <- IntegrationRule et (2 * 1)) Weight ip = 2^-1 ->
  CalcElementMatrix IntegrationRule (mkLaplace unit_coefficient)
    (MyElement (MyLinearTrig et)) eltrans elmat lh
  = (Returned, P1_stiffness P0 P1 P2).
Proof.
move=> dJ HJinv Hmeas Hw.
rewrite [LHS]surjective_pairing CalcElementMatrix_sum /element_matrix_spec /=.
congr (_, _).
pose G := P1_dshape *m invmx (Jacobian P0 P1 P2).
have term ip :
    (Weight ip * CalcMeasure eltrans ip * 1)
    *: (physical_gradients (MyLinearTrig et) eltrans ip
        *m (physical_gradients (MyLinearTrig et) eltrans ip)^T)
    = Weight ip *: (`|\det (Jacobian P0 P1 P2)| *: (G *m G^T)).
  by rewrite /physical_gradients /= HJinv Hmeas mulr1 scalerA.
rewrite (eq_bigr _ (fun ip _ => term ip)) -scaler_suml Hw /G invmx22 //.
rewrite /P1_stiffness /triangle_area.
move: dJ; rewrite det_mx22 /Jacobian !mxE /=.
set d := (_ - _ : R) => dJ.
have normd : `|d| = d \/ `|d| = - d.
  by case: (ger0P d) => _; [left | right].
apply/matrixP; elim/ord3_cases; elim/ord3_cases;
  rewrite !mxE sum_ord2 !mxE !sum_ord2 !mxE /= /dot /vec /=;
  by case: normd => ->; field.
Qed.

End StiffnessP1.

(** ** The theorems with hypotheses, at the sample data *)

Lemma midpoint_rule_weights : \sum_(ip <- midpoint_rule) Weight ip = 2^-1.
Proof. by rewrite /midpoint_rule !big_cons big_nil /=; field. Qed.

Lemma sample_Jacobian_det :
  \det (Jacobian (2, 0) (0, 1) (0, 0) : 'M[rat]_2) = 2.
Proof. by rewrite det_mx22 !mxE /=; ring. Qed.

(** The two kernels evaluated on the sample triangle with the coefficient 1:
    the load vector is a third of the area at each vertex, and the stiffness
    matrix is the one computed by hand from the edges (0,-1), (2,0), (-2,1). *)
Example sample_element_vector :
  CalcElementVector sample_rule (mkSource unit_coefficient)
    (MyElement (MyLinearTrig sample_trig)) sample_transformation 0 tt
  = (Returned, mx_of_rows [:: [:: 3^-1]; [:: 3^-1]; [:: 3^-1]]).
Proof.
rewrite /CalcElementVector /= /CalcElementVector_point /=.
rewrite sample_Jacobian_det; congr (_, _).
apply/matrixP; elim/ord3_cases; move=> j; rewrite !mxE /= ord1 /=.
- by rewrite ger0_norm //; field.
- by rewrite ger0_norm //; field.
- by rewrite ger0_norm //; field.
Qed.

Example sample_element_matrix :
  CalcElementMatrix sample_rule (mkLaplace unit_coefficient)
    (MyElement (MyLinearTrig sample_trig)) sample_transformation 0 tt
  = (Returned,
     mx_of_rows [:: [:: 4^-1; 0; - 4^-1];
                    [:: 0; 1; -1];
                    [:: - 4^-1; -1; 5 / 4]]).
Proof.
rewrite /CalcElementMatrix /= /CalcElementMatrix_point /=.
rewrite invmx22 sample_Jacobian_det //; congr (_, _).
by apply/matrixP; elim/ord3_cases; elim/ord3_cases;
  rewrite !mxE /= !sum_ord2 !mxE /= !sum_ord2 !mxE /= ger0_norm.
Qed.


(** The quadratic form of the sample stiffness matrix at the vector of
    ones. *)
Lemma CalcElementMatrix_positive_semidefinite_witness :
  0 <= ((const_mx 1 : 'cV[rat]_3)^T
        *m (CalcElementMatrix sample_rule (mkLaplace unit_coefficient)
              (MyElement (MyLinearTrig sample_trig))
              sample_transformation 0 tt).2
        *m (const_mx 1 : 'cV[rat]_3)) 0 0.
Proof.
apply: (@CalcElementMatrix_positive_semidefinite _ _ _ sample_rule).
  by move=> mip /=; exact: ltr01.
by rewrite /= !mulr_ge0 ?invr_ge0 ?normr_ge0 ?ler0n.
Defined.

(** The stiffness matrix of the sample triangle. *)
Lemma P1_stiffness_matrix_witness :
  CalcElementMatrix sample_rule (mkLaplace unit_coefficient)
    (MyElement (MyLinearTrig sample_trig)) sample_transformation 0 tt
  = (Returned, P1_stiffness (2, 0) (0, 1) (0, 0)).
Proof.
apply: P1_stiffness_matrix.
- by rewrite sample_Jacobian_det.
- by [].
- by [].
- by rewrite /= midpoint_rule_weights.
Defined.

(** ** Further properties of the two kernels *)

Section RuleProperties.

Variable R : comPzRingType.
Variable ELEMENT_TYPE : Type.
Variable LocalHeap : Type.

Notation MyBaseElement := (MyBaseElement R ELEMENT_TYPE).
Notation rule := (ELEMENT_TYPE -> int -> seq (IntegrationPoint R)).

(** X1.  When the integration rule of the element has no point, both
    kernels return and leave the zero matrix and the zero vector. *)
Theorem empty_rule (IntegrationRule : rule)
    (laplace : MyLaplaceIntegrator R) (source : MySourceIntegrator R)
    (fel : MyBaseElement) (eltrans : ElementTransformation R)
    (elmat : 'M[R]_(GetNDof fel)) (elvec : 'cV[R]_(GetNDof fel))
    (lh : LocalHeap) :
  IntegrationRule (ElementType fel) (2 * Order fel) = [::] ->
  CalcElementMatrix IntegrationRule laplace (MyElement fel) eltrans elmat lh
  = (Returned, 0)
  /\ CalcElementVector IntegrationRule source (MyElement fel) eltrans
       elvec lh
     = (Returned, 0).
Proof. by rewrite /CalcElementMatrix /CalcElementVector /= => ->. Qed.

(** X2.  With a rule that lists the points of one rule and then those of
    another, each kernel produces the sum of what it produces with the two
    rules separately. *)
Theorem rule_concatenation (IntegrationRule1 IntegrationRule2 : rule)
    (laplace : MyLaplaceIntegrator R) (source : MySourceIntegrator R)
    (fel : MyBaseElement) (eltrans : ElementTransformation R)
    (elmat : 'M[R]_(GetNDof fel)) (elvec : 'cV[R]_(GetNDof fel))
    (lh : LocalHeap) :
  (CalcElementMatrix
     (fun et order => IntegrationRule1 et order ++ IntegrationRule2 et order)
     laplace (MyElement fel) eltrans elmat lh).2
  = (CalcElementMatrix IntegrationRule1 laplace (MyElement fel) eltrans
       elmat lh).2
    + (CalcElementMatrix IntegrationRule2 laplace (MyElement fel) eltrans
         elmat lh).2
  /\ (CalcElementVector
        (fun et order => IntegrationRule1 et order ++ IntegrationRule2 et order)
        source (MyElement fel) eltrans elvec lh).2
     = (CalcElementVector IntegrationRule1 source (MyElement fel) eltrans
          elvec lh).2
       + (CalcElementVector IntegrationRule2 source (MyElement fel) eltrans
            elvec lh).2.
Proof.
rewrite !CalcElementMatrix_sum !CalcElementVector_sum.
by rewrite /element_matrix_spec /element_vector_spec !big_cat.
Qed.

(** X3.  The order of the points of the rule does not matter: with two rules
    that are permutations of each other, each kernel produces the same
    result. *)
Theorem rule_permutation (IntegrationRule1 IntegrationRule2 : rule)
    (laplace : MyLaplaceIntegrator R) (source : MySourceIntegrator R)
    (fel : MyBaseElement) (eltrans : ElementTransformation R)
    (elmat : 'M[R]_(GetNDof fel)) (elvec : 'cV[R]_(GetNDof fel))
    (lh : LocalHeap) :
  perm_eq (IntegrationRule1 (ElementType fel) (2 * Order fel))
          (IntegrationRule2 (ElementType fel) (2 * Order fel)) ->
  CalcElementMatrix IntegrationRule1 laplace (MyElement fel) eltrans
    elmat lh
  = CalcElementMatrix IntegrationRule2 laplace (MyElement fel) eltrans
      elmat lh
  /\ CalcElementVector IntegrationRule1 source (MyElement fel) eltrans
       elvec lh
     = CalcElementVector IntegrationRule2 source (MyElement fel) eltrans
         elvec lh.
Proof.
move=> perm12; split.
  rewrite [LHS]surjective_pairing [RHS]surjective_pairing.
  rewrite !CalcElementMatrix_sum /element_matrix_spec.
  by rewrite (perm_big _ perm12).
rewrite [LHS]surjective_pairing [RHS]surjective_pairing.
rewrite !CalcElementVector_sum /element_vector_spec.
by rewrite (perm_big _ perm12).
Qed.

End RuleProperties.

Section CoefficientProperties.

Variable R : comPzRingType.
Variable ELEMENT_TYPE : Type.
Variable LocalHeap : Type.
Variable IntegrationRule : ELEMENT_TYPE -> int -> seq (IntegrationPoint R).

Notation MyBaseElement := (MyBaseElement R ELEMENT_TYPE).
Notation CalcElementMatrix :=
  (@CalcElementMatrix R ELEMENT_TYPE LocalHeap IntegrationRule).
Notation CalcElementVector :=
  (@CalcElementVector R ELEMENT_TYPE LocalHeap IntegrationRule).

(** X4.  In exact arithmetic both kernels are additive in the coefficient:
    with the sum of two coefficients each produces the sum of what it
    produces with either. *)
Theorem coefficient_additivity (f g : CoefficientFunction R)
    (fel : MyBaseElement) (eltrans : ElementTransformation R)
    (elmat : 'M[R]_(GetNDof fel)) (elvec : 'cV[R]_(GetNDof fel))
    (lh : LocalHeap) :
  (CalcElementMatrix (mkLaplace (add_coefficient f g)) (MyElement fel)
     eltrans elmat lh).2
  = (CalcElementMatrix (mkLaplace f) (MyElement fel) eltrans elmat lh).2
    + (CalcElementMatrix (mkLaplace g) (MyElement fel) eltrans elmat lh).2
  /\ (CalcElementVector (mkSource (add_coefficient f g)) (MyElement fel)
        eltrans elvec lh).2
     = (CalcElementVector (mkSource f) (MyElement fel) eltrans elvec lh).2
       + (CalcElementVector (mkSource g) (MyElement fel) eltrans elvec lh).2.
Proof.
rewrite !CalcElementMatrix_sum !CalcElementVector_sum.
rewrite /element_matrix_spec /element_vector_spec -!big_split /=.
by split; apply: eq_bigr => ip _; rewrite -scalerDl mulrDr.
Qed.


(** X6.  The results depend on the coefficient through its values at the
    mapped points of the rule only: two coefficients that agree there give the
    same matrix and the same vector. *)
Theorem coefficient_locality (f g : CoefficientFunction R)
    (fel : MyBaseElement) (eltrans : ElementTransformation R)
    (elmat : 'M[R]_(GetNDof fel)) (elvec : 'cV[R]_(GetNDof fel))
    (lh : LocalHeap) :
  (forall ip, ip \in IntegrationRule (ElementType fel) (2 * Order fel) ->
     Evaluate f (MappedIntegrationPoint_ctor ip eltrans)
     = Evaluate g (MappedIntegrationPoint_ctor ip eltrans)) ->
  CalcElementMatrix (mkLaplace f) (MyElement fel) eltrans elmat lh
  = CalcElementMatrix (mkLaplace g) (MyElement fel) eltrans elmat lh
  /\ CalcElementVector (mkSource f) (MyElement fel) eltrans elvec lh
     = CalcElementVector (mkSource g) (MyElement fel) eltrans elvec lh.
Proof.
move=> fg; split.
  rewrite [LHS]surjective_pairing [RHS]surjective_pairing.
  rewrite !CalcElementMatrix_sum /element_matrix_spec /=; congr (_, _).
  by apply: eq_big_seq => ip ip_in; rewrite fg.
rewrite [LHS]surjective_pairing [RHS]surjective_pairing.
rewrite !CalcElementVector_sum /element_vector_spec /=; congr (_, _).
by apply: eq_big_seq => ip ip_in; rewrite fg.
Qed.

End CoefficientProperties.

Section StructureProperties.

Variable R : comPzRingType.
Variable ELEMENT_TYPE : Type.
Variable LocalHeap : Type.
Variable IntegrationRule : ELEMENT_TYPE -> int -> seq (IntegrationPoint R).

Notation MyBaseElement := (MyBaseElement R ELEMENT_TYPE).
Notation CalcElementMatrix :=
  (@CalcElementMatrix R ELEMENT_TYPE LocalHeap IntegrationRule).
Notation CalcElementVector :=
  (@CalcElementVector R ELEMENT_TYPE LocalHeap IntegrationRule).

(** The quadratic form of [G * G^T] at [x] is the sum of the squares of the
    entries of [x^T * G]. *)
Lemma gram_quadratic_form (n k : nat) (G : 'M[R]_(n, k)) (x : 'cV[R]_n) :
  (x^T *m (G *m G^T) *m x) 0 0 = \sum_j ((x^T *m G) 0 j) ^+ 2.
Proof.
rewrite mulmxA -mulmxA -[G^T *m x]trmxK trmx_mul trmxK mxE.
by apply: eq_bigr => j _; rewrite [X in _ * X]mxE expr2.
Qed.


(** X8.  In exact arithmetic the quadratic form of the matrix at a
    coefficient vector [x] is the
    sum over the points of [(fac * lam)] times the squared length of the
    mapped gradient [x^T * G] of the function with coefficients [x]. *)
Theorem CalcElementMatrix_energy (self : MyLaplaceIntegrator R)
    (fel : MyBaseElement)
    (eltrans : ElementTransformation R) (elmat : 'M[R]_(GetNDof fel))
    (lh : LocalHeap) (x : 'cV[R]_(GetNDof fel)) :
  (x^T *m (CalcElementMatrix self (MyElement fel) eltrans elmat lh).2 *m x)
    0 0
  = \sum_(ip <- IntegrationRule (ElementType fel) (2 * Order fel))
      (Weight ip * CalcMeasure eltrans ip
       * Evaluate (coef_lambda self) (MappedIntegrationPoint_ctor ip eltrans))
      * \sum_k ((x^T *m physical_gradients fel eltrans ip) 0 k) ^+ 2.
Proof.
rewrite CalcElementMatrix_sum /element_matrix_spec.
rewrite mulmx_sumr mulmx_suml summxE.
apply: eq_bigr => ip _.
by rewrite -scalemxAr -scalemxAl mxE gram_quadratic_form.
Qed.

(** X9.  In exact arithmetic: when the gradients of the shape functions add
    up to zero at every
    point (the shape functions add up to a constant), the vector of ones is
    in the kernel of the matrix on both sides: all row sums and all column
    sums are zero. *)
Theorem constants_in_kernel (self : MyLaplaceIntegrator R)
    (fel : MyBaseElement) (eltrans : ElementTransformation R)
    (elmat : 'M[R]_(GetNDof fel)) (lh : LocalHeap) :
  (forall ip, (ones (GetNDof fel))^T *m CalcDShape fel ip = 0) ->
  (CalcElementMatrix self (MyElement fel) eltrans elmat lh).2
    *m ones (GetNDof fel) = 0
  /\ (ones (GetNDof fel))^T
       *m (CalcElementMatrix self (MyElement fel) eltrans elmat lh).2 = 0.
Proof.
move=> sum0; rewrite CalcElementMatrix_sum /element_matrix_spec.
have G0 ip : (ones (GetNDof fel))^T *m physical_gradients fel eltrans ip = 0.
  by rewrite /physical_gradients mulmxA sum0 mul0mx.
split.
  rewrite mulmx_suml big1 // => ip _.
  rewrite -scalemxAl -mulmxA -[_^T *m ones _]trmxK trmx_mul trmxK G0.
  by rewrite trmx0 mulmx0 scaler0.
rewrite mulmx_sumr big1 // => ip _.
by rewrite -scalemxAr mulmxA G0 mul0mx scaler0.
Qed.

(** X10.  In exact arithmetic: when the shape functions add up to 1 at every
    point, the entries
    of the vector add up to the quadrature of the coefficient: the sum over
    the points of [weight * measure * f]. *)
Theorem load_total (self : MySourceIntegrator R) (fel : MyBaseElement)
    (eltrans : ElementTransformation R) (elvec : 'cV[R]_(GetNDof fel))
    (lh : LocalHeap) :
  (forall ip, \sum_i CalcShape fel ip i 0 = 1) ->
  \sum_i (CalcElementVector self (MyElement fel) eltrans elvec lh).2 i 0
  = \sum_(ip <- IntegrationRule (ElementType fel) (2 * Order fel))
      Weight ip * CalcMeasure eltrans ip
      * Evaluate (coef_f self) (MappedIntegrationPoint_ctor ip eltrans).
Proof.
move=> sum1; rewrite CalcElementVector_sum /element_vector_spec.
rewrite (eq_bigr _ (fun i _ => summxE _ _ _ i 0)) exchange_big /=.
apply: eq_bigr => ip _.
rewrite (eq_bigr _ (fun i _ => mxE _ _ i 0)) /=.
by rewrite -mulr_sumr sum1 mulr1.
Qed.

(** X11.  In exact arithmetic, turning the element and the coefficient
    together by an orthogonal matrix [Q] leaves the matrix unchanged: the
    mapped points and the inverse Jacobians are multiplied by [Q] on the
    right, the measure stays, and the turned coefficient [f'] takes at a
    turned point the value of [f] at the point. *)
Theorem rotation_invariance (f f' : R * R -> R) (Q : 'M[R]_2)
    (fel : MyBaseElement) (eltrans : ElementTransformation R)
    (elmat : 'M[R]_(GetNDof fel)) (lh : LocalHeap) :
  Q *m Q^T = 1%:M ->
  (forall p, f' (turn_point Q p) = f p) ->
  CalcElementMatrix (mkLaplace (coefficient_at_point f')) (MyElement fel)
    (turn Q eltrans) elmat lh
  = CalcElementMatrix (mkLaplace (coefficient_at_point f)) (MyElement fel)
      eltrans elmat lh.
Proof.
move=> QQ ff'; rewrite [LHS]surjective_pairing [RHS]surjective_pairing.
rewrite !CalcElementMatrix_sum /element_matrix_spec /=; congr (_, _).
apply: eq_bigr => ip _; rewrite /physical_gradients /= ff'; congr (_ *: _).
rewrite [CalcDShape fel ip *m _]mulmxA trmx_mul mulmxA.
by rewrite -[_ *m Q *m _]mulmxA QQ mulmx1.
Qed.

End StructureProperties.

Section DilationProperties.

Variable R : fieldType.
Variable ELEMENT_TYPE : Type.
Variable LocalHeap : Type.
Variable IntegrationRule : ELEMENT_TYPE -> int -> seq (IntegrationPoint R).

Notation MyBaseElement := (MyBaseElement R ELEMENT_TYPE).
Notation CalcElementMatrix :=
  (@CalcElementMatrix R ELEMENT_TYPE LocalHeap IntegrationRule).
Notation CalcElementVector :=
  (@CalcElementVector R ELEMENT_TYPE LocalHeap IntegrationRule).

(** X12.  In exact arithmetic: with a constant coefficient, enlarging the
    element by a factor
    [t <> 0] leaves the matrix unchanged and multiplies the vector by
    [t^2]. *)
Theorem dilation_invariance (t c : R) (fel : MyBaseElement)
    (eltrans : ElementTransformation R) (elmat : 'M[R]_(GetNDof fel))
    (elvec : 'cV[R]_(GetNDof fel)) (lh : LocalHeap) :
  t != 0 ->
  CalcElementMatrix (mkLaplace (constant_coefficient c)) (MyElement fel)
    (dilate t eltrans) elmat lh
  = CalcElementMatrix (mkLaplace (constant_coefficient c)) (MyElement fel)
      eltrans elmat lh
  /\ CalcElementVector (mkSource (constant_coefficient c)) (MyElement fel)
       (dilate t eltrans) elvec lh
     = (Returned,
        t ^+ 2 *: (CalcElementVector (mkSource (constant_coefficient c))
                     (MyElement fel) eltrans elvec lh).2).
Proof.
move=> t0; split.
  rewrite [LHS]surjective_pairing [RHS]surjective_pairing.
  rewrite !CalcElementMatrix_sum /element_matrix_spec /=; congr (_, _).
  apply: eq_bigr => ip _; rewrite /physical_gradients /=.
  rewrite -scalemxAr linearZ /= -scalemxAr -scalemxAl !scalerA.
  by congr (_ *: _); field.
rewrite [LHS]surjective_pairing !CalcElementVector_sum.
rewrite /element_vector_spec /= scaler_sumr; congr (_, _).
apply: eq_bigr => ip _; rewrite scalerA; congr (_ *: _).
by ring.
Qed.

End DilationProperties.

Section LoadP1.

Variable R : realFieldType.
Variable ELEMENT_TYPE : Type.
Variable LocalHeap : Type.
Variable IntegrationRule : ELEMENT_TYPE -> int -> seq (IntegrationPoint R).

(** X13.  In exact arithmetic: for the P1 element, a constant coefficient
    [c] and an affine
    transformation onto the triangle [P0 P1 P2], with an integration rule
    that integrates 1, x and y exactly over the reference triangle, every
    entry of the vector is [c * area / 3]. *)
Theorem P1_load_vector (et : ELEMENT_TYPE) (c : R) (P0 P1 P2 : R * R)
    (eltrans : ElementTransformation R) (elvec : 'cV[R]_3) (lh : LocalHeap) :
  (forall ip, CalcMeasure eltrans ip = `|\det (Jacobian P0 P1 P2)|) ->
  \sum_(ip <- IntegrationRule et (2 * 1)) Weight ip = 2^-1 ->
  \sum_(ip <- IntegrationRule et (2 * 1)) Weight ip * (Coord ip).1 = 6^-1 ->
  \sum_(ip <- IntegrationRule et (2 * 1)) Weight ip * (Coord ip).2 = 6^-1 ->
  CalcElementVector IntegrationRule (mkSource (constant_coefficient c))
    (MyElement (MyLinearTrig et)) eltrans elvec lh
  = (Returned, const_mx (c * triangle_area P0 P1 P2 / 3)).
Proof.
move=> Hmeas Hw Hx Hy.
rewrite [LHS]surjective_pairing CalcElementVector_sum /element_vector_spec /=.
congr (_, _); rewrite /triangle_area; set d := `|_|.
pose ir := IntegrationRule et (2 * 1).
have Hxy : \sum_(ip <- ir) Weight ip * (1 - (Coord ip).1 - (Coord ip).2)
           = 6^-1.
  have split_term (ip : IntegrationPoint R) :
      Weight ip * (1 - (Coord ip).1 - (Coord ip).2)
      = Weight ip - Weight ip * (Coord ip).1 - Weight ip * (Coord ip).2.
    by ring.
  rewrite (eq_bigr _ (fun ip _ => split_term ip)) !sumrB Hw Hx Hy.
  by field.
apply/matrixP; elim/ord3_cases; move=> j; rewrite ord1 summxE !mxE.
- rewrite (eq_bigr (fun ip => d * c * (Weight ip * (Coord ip).1)))
          => [ip _|]; first by rewrite !mxE /= Hmeas -/d; ring.
  by rewrite -mulr_sumr Hx; field.
- rewrite (eq_bigr (fun ip => d * c * (Weight ip * (Coord ip).2)))
          => [ip _|]; first by rewrite !mxE /= Hmeas -/d; ring.
  by rewrite -mulr_sumr Hy; field.
- rewrite (eq_bigr (fun ip => d * c * (Weight ip
                                * (1 - (Coord ip).1 - (Coord ip).2))))
          => [ip _|]; first by rewrite !mxE /= Hmeas -/d; ring.
  by rewrite -mulr_sumr Hxy; field.
Qed.

End LoadP1.

(** ** The further properties with hypotheses, at the sample data *)

Lemma sum_ord3 (V : nmodType) (F : 'I_3 -> V) :
  \sum_i F i = F 0 + F 1 + F 2%:R.
Proof.
rewrite !big_ord_recl big_ord0 addr0 addrA.
by congr (F _ + F _ + F _); apply: val_inj.
Qed.

Lemma P1_gradients_sum (R : comPzRingType) :
  (ones 3)^T *m (P1_dshape : 'M[R]_(3, 2)) = 0.
Proof.
apply/matrixP=> i; rewrite ord1; elim/ord2_cases;
  by rewrite !mxE sum_ord3 !mxE /=; ring.
Qed.

Lemma P1_shapes_sum (R : comPzRingType) (ET : Type) (et : ET)
    (ip : IntegrationPoint R) :
  \sum_i CalcShape (MyLinearTrig et) ip i 0 = 1.
Proof. by rewrite sum_ord3 !mxE /=; ring. Qed.

Lemma quarter_turn_orthogonal : quarter_turn *m quarter_turn^T = 1%:M.
Proof.
apply/matrixP; elim/ord2_cases; elim/ord2_cases;
  by rewrite !mxE sum_ord2 !mxE /=; ring.
Qed.

(** No rule is known for quadrilaterals in the sample. *)
Lemma empty_rule_witness :
  CalcElementMatrix sample_rule (mkLaplace unit_coefficient)
    (MyElement (MyLinearTrig sample_quad)) sample_transformation 0 tt
  = (Returned, 0)
  /\ CalcElementVector sample_rule (mkSource unit_coefficient)
       (MyElement (MyLinearTrig sample_quad)) sample_transformation 0 tt
     = (Returned, 0).
Proof. by apply: empty_rule. Defined.

(** The midpoint rule and the same points in reverse order. *)
Lemma rule_permutation_witness :
  CalcElementMatrix sample_rule' (mkLaplace unit_coefficient)
    (MyElement (MyLinearTrig sample_trig)) sample_transformation 0 tt
  = CalcElementMatrix (fun _ _ => rev midpoint_rule)
      (mkLaplace unit_coefficient)
      (MyElement (MyLinearTrig sample_trig)) sample_transformation 0 tt
  /\ CalcElementVector sample_rule' (mkSource unit_coefficient)
       (MyElement (MyLinearTrig sample_trig)) sample_transformation 0 tt
     = CalcElementVector (fun _ _ => rev midpoint_rule)
         (mkSource unit_coefficient)
         (MyElement (MyLinearTrig sample_trig)) sample_transformation 0 tt.
Proof.
apply: (@rule_permutation _ _ _ sample_rule' (fun _ _ => rev midpoint_rule)).
by rewrite /sample_rule' perm_sym perm_rev.
Defined.

(** The coefficient 1 and a coefficient that is 1 at the points of weight
    1/6 only. *)
Lemma coefficient_locality_witness :
  CalcElementMatrix sample_rule' (mkLaplace unit_coefficient)
    (MyElement (MyLinearTrig sample_trig)) sample_transformation 0 tt
  = CalcElementMatrix sample_rule'
      (mkLaplace (mkCF (fun mip => 6 * Weight (IP mip))))
      (MyElement (MyLinearTrig sample_trig)) sample_transformation 0 tt
  /\ CalcElementVector sample_rule' (mkSource unit_coefficient)
       (MyElement (MyLinearTrig sample_trig)) sample_transformation 0 tt
     = CalcElementVector sample_rule'
         (mkSource (mkCF (fun mip => 6 * Weight (IP mip))))
         (MyElement (MyLinearTrig sample_trig)) sample_transformation 0 tt.
Proof.
apply: coefficient_locality => ip.
by rewrite /sample_rule' !inE => /or3P[] /eqP -> /=; field.
Defined.

Lemma constants_in_kernel_witness :
  (CalcElementMatrix sample_rule (mkLaplace unit_coefficient)
     (MyElement (MyLinearTrig sample_trig)) sample_transformation 0 tt).2
    *m ones 3 = 0
  /\ (ones 3)^T
       *m (CalcElementMatrix sample_rule (mkLaplace unit_coefficient)
             (MyElement (MyLinearTrig sample_trig))
             sample_transformation 0 tt).2 = 0.
Proof.
apply: (@constants_in_kernel _ _ _ sample_rule) => ip.
exact: P1_gradients_sum.
Defined.

Lemma load_total_witness :
  \sum_i (CalcElementVector sample_rule (mkSource unit_coefficient)
            (MyElement (MyLinearTrig sample_trig))
            sample_transformation 0 tt).2 i 0
  = \sum_(ip <- sample_rule sample_trig (2 * 1))
      Weight ip * CalcMeasure sample_transformation ip * 1.
Proof.
apply: (@load_total _ _ _ sample_rule (mkSource unit_coefficient)) => ip.
exact: P1_shapes_sum.
Defined.

(** The sample triangle and the coefficient x * y, both turned by a right
    angle: the point (x, y) goes to (y, -x). *)
Lemma rotation_invariance_witness :
  CalcElementMatrix sample_rule
    (mkLaplace (coefficient_at_point (fun p => - (p.1 * p.2))))
    (MyElement (MyLinearTrig sample_trig))
    (turn quarter_turn sample_transformation) 0 tt
  = CalcElementMatrix sample_rule
      (mkLaplace (coefficient_at_point (fun p => p.1 * p.2)))
      (MyElement (MyLinearTrig sample_trig)) sample_transformation 0 tt.
Proof.
apply: rotation_invariance; first exact: quarter_turn_orthogonal.
by move=> p; rewrite /turn_point !mxE /=; ring.
Defined.

Lemma dilation_invariance_witness :
  CalcElementMatrix sample_rule (mkLaplace (constant_coefficient 3))
    (MyElement (MyLinearTrig sample_trig))
    (dilate 3 sample_transformation) 0 tt
  = CalcElementMatrix sample_rule (mkLaplace (constant_coefficient 3))
      (MyElement (MyLinearTrig sample_trig)) sample_transformation 0 tt
  /\ CalcElementVector sample_rule (mkSource (constant_coefficient 3))
       (MyElement (MyLinearTrig sample_trig))
       (dilate 3 sample_transformation) 0 tt
     = (Returned,
        3 ^+ 2 *: (CalcElementVector sample_rule
                     (mkSource (constant_coefficient 3))
                     (MyElement (MyLinearTrig sample_trig))
                     sample_transformation 0 tt).2).
Proof. by apply: dilation_invariance. Defined.

Lemma midpoint_rule_moments :
  \sum_(ip <- midpoint_rule) Weight ip * (Coord ip).1 = 6^-1
  /\ \sum_(ip <- midpoint_rule) Weight ip * (Coord ip).2 = 6^-1.
Proof. by split; rewrite /midpoint_rule !big_cons big_nil /=; field. Qed.

Lemma P1_load_vector_witness :
  CalcElementVector sample_rule (mkSource (constant_coefficient 3))
    (MyElement (MyLinearTrig sample_trig)) sample_transformation 0 tt
  = (Returned, const_mx (3 * triangle_area (2, 0) (0, 1) (0, 0) / 3)).
Proof.
apply: P1_load_vector.
- by [].
- by rewrite /= midpoint_rule_weights.
- by rewrite /=; case: midpoint_rule_moments.
- by rewrite /=; case: midpoint_rule_moments.
Defined.

(** * The two kernels in IEEE binary64

    The same two functions with [double] taken as it is: [float] is the
    binary64 format, and each [*] and [+] of the source on doubles is one
    operation rounded to nearest.  Dense matrices are lists of rows.  The
    expressions of ngbla are evaluated entry by entry: an entry of a
    product is the sum of the products of a row and a column, accumulated
    in index order, and no operation is fused. *)

(** Entry (0,2) of the classical matrix of the triangle (1,1), (3,7), (0,0):
    e_0 . e_2 / (4 * area) = -48 / 8. *)
Lemma classical_entry_1_1_3_7 :
  (P1_stiffness (1, 1) (3, 7) (0, 0) : 'M[rat]_3) 0 2%:R = - 6%:R.
Proof.
rewrite /P1_stiffness /triangle_area det_mx22 !mxE /= /dot /vec /=.
have -> : (1 - 0) * (7 - 0) - (3 - 0) * (1 - 0) = 4%:R :> rat by ring.
by rewrite ger0_norm //; field.
Qed.

From Stdlib Require BinInt Floats.

Module Double.

Import BinNums BinInt PrimFloat SpecFloat FloatOps.
Local Open Scope float_scope.

Definition Vector : Type := seq float.
Definition Matrix : Type := seq (seq float).

Definition entry (A : Matrix) (i j : nat) : float := nth 0 (nth [::] A i) j.

(** The sum over [k] of [u(k) * v(k)], accumulated in index order. *)
Definition row_times_column (u v : seq float) : float :=
  match zip u v with
  | [::] => 0
  | ab :: rest => foldl (fun sum cd => sum + cd.1 * cd.2) (ab.1 * ab.2) rest
  end.

(** The columns of a matrix with two columns. *)
Definition columns2 (A : Matrix) : seq (seq float) :=
  [:: [seq nth 0 row 0 | row <- A]; [seq nth 0 row 1 | row <- A]].

(** [A * B] for [B] with two columns, [A * Trans (B)], [s * A], [A + B]. *)
Definition Mult2 (A B : Matrix) : Matrix :=
  [seq [seq row_times_column row col | col <- columns2 B] | row <- A].

Definition Mult_Trans (A B : Matrix) : Matrix :=
  [seq [seq row_times_column rowA rowB | rowB <- B] | rowA <- A].

Definition Scale (s : float) (A : Matrix) : Matrix :=
  [seq [seq s * a | a <- row] | row <- A].

Definition Add (A B : Matrix) : Matrix :=
  [seq [seq ab.1 + ab.2 | ab <- zip rows.1 rows.2] | rows <- zip A B].

Definition ScaleV (s : float) (v : Vector) : Vector := [seq s * a | a <- v].

Definition AddV (u v : Vector) : Vector :=
  [seq ab.1 + ab.2 | ab <- zip u v].

Section Kernels.

Variable ELEMENT_TYPE : Type.
Variable LocalHeap : Type.

Record IntegrationPoint : Type := mkIP {
  Coord : float * float;
  Weight : float
}.

Record ElementTransformation : Type := mkTrafo {
  CalcPoint : IntegrationPoint -> float * float;
  CalcJacobianInverse : IntegrationPoint -> Matrix;
  CalcMeasure : IntegrationPoint -> float
}.

Record MappedIntegrationPoint : Type := mkMIP {
  IP : IntegrationPoint;
  GetPoint : float * float;
  GetJacobianInverse : Matrix;
  GetMeasure : float
}.

Definition MappedIntegrationPoint_ctor (ip : IntegrationPoint)
    (eltrans : ElementTransformation) : MappedIntegrationPoint :=
  mkMIP ip (CalcPoint eltrans ip) (CalcJacobianInverse eltrans ip)
        (CalcMeasure eltrans ip).

Record CoefficientFunction : Type := mkCF {
  Evaluate : MappedIntegrationPoint -> float
}.

Record MyBaseElement : Type := mkElement {
  GetNDof : nat;
  Order : int;
  ElementType : ELEMENT_TYPE;
  CalcShape : IntegrationPoint -> Vector;
  CalcDShape : IntegrationPoint -> Matrix
}.

Inductive FiniteElement : Type :=
| MyElement (fel : MyBaseElement)
| OtherElement (ndof : nat) (order : int) (et : ELEMENT_TYPE).

Variable IntegrationRule : ELEMENT_TYPE -> int -> seq IntegrationPoint.

Record MyLaplaceIntegrator : Type := mkLaplace {
  coef_lambda : CoefficientFunction
}.

Record MySourceIntegrator : Type := mkSource {
  coef_f : CoefficientFunction
}.

(** The body of the loop of [CalcElementMatrix]. *)
Definition CalcElementMatrix_point (self : MyLaplaceIntegrator)
    (fel : MyBaseElement) (eltrans : ElementTransformation)
    (elmat : Matrix) (ip : IntegrationPoint) : Matrix :=
  let mip := MappedIntegrationPoint_ctor ip eltrans in
  let lam := Evaluate (coef_lambda self) mip in
  let dshape_ref := CalcDShape fel ip in
  let dshape := Mult2 dshape_ref (GetJacobianInverse mip) in
  let fac := Weight (IP mip) * GetMeasure mip in
  Add elmat (Mult_Trans (Scale (fac * lam) dshape) dshape).

(** [MyLaplaceIntegrator::CalcElementMatrix]; [elmat = 0] sets every entry
    of the buffer to zero. *)
Definition CalcElementMatrix (self : MyLaplaceIntegrator)
    (base_fel : FiniteElement) (eltrans : ElementTransformation)
    (elmat : Matrix) (lh : LocalHeap) : completion * Matrix :=
  match base_fel with
  | OtherElement _ _ _ => (Thrown bad_cast, elmat)
  | MyElement fel =>
      let elmat := [seq [seq 0 | _ <- row] | row <- elmat] in
      let ir := IntegrationRule (ElementType fel) (2 * Order fel)%R in
      (Returned, foldl (CalcElementMatrix_point self fel eltrans) elmat ir)
  end.

(** The body of the loop of [CalcElementVector]. *)
Definition CalcElementVector_point (self : MySourceIntegrator)
    (fel : MyBaseElement) (eltrans : ElementTransformation)
    (elvec : Vector) (ip : IntegrationPoint) : Vector :=
  let mip := MappedIntegrationPoint_ctor ip eltrans in
  let f := Evaluate (coef_f self) mip in
  let shape := CalcShape fel ip in
  let fac := Weight (IP mip) * GetMeasure mip in
  AddV elvec (ScaleV (fac * f) shape).

(** [MySourceIntegrator::CalcElementVector]. *)
Definition CalcElementVector (self : MySourceIntegrator)
    (base_fel : FiniteElement) (eltrans : ElementTransformation)
    (elvec : Vector) (lh : LocalHeap) : completion * Vector :=
  match base_fel with
  | OtherElement _ _ _ => (Thrown bad_cast, elvec)
  | MyElement fel =>
      let elvec := [seq 0 | _ <- elvec] in
      let ir := IntegrationRule (ElementType fel) (2 * Order fel)%R in
      (Returned, foldl (CalcElementVector_point self fel eltrans) elvec ir)
  end.

End Kernels.

Arguments MyElement {ELEMENT_TYPE} fel.
Arguments CalcElementMatrix {ELEMENT_TYPE LocalHeap}
  IntegrationRule self base_fel eltrans elmat lh.
Arguments CalcElementVector {ELEMENT_TYPE LocalHeap}
  IntegrationRule self base_fel eltrans elvec lh.

(** ** Inputs in binary64 *)

(** The P1 element of the reference triangle, as [MyLinearTrig] above. *)
Definition MyLinearTrig (et : sample_geometry)
    : MyBaseElement sample_geometry :=
  mkElement 3 1 et
    (fun ip => [:: (Coord ip).1; (Coord ip).2;
                   1 - (Coord ip).1 - (Coord ip).2])
    (fun _ => [:: [:: 1; 0]; [:: 0; 1]; [:: -1; -1]]).

(** The edge-midpoint rule: each weight is the double nearest to 1/6. *)
Definition midpoint_rule : seq IntegrationPoint :=
  [:: mkIP (0.5, 0) (1 / 6); mkIP (0.5, 0.5) (1 / 6); mkIP (0, 0.5) (1 / 6)].

Definition sample_rule (et : sample_geometry) (order : int)
    : seq IntegrationPoint :=
  match et with
  | sample_trig => if order == 2%R then midpoint_rule else [::]
  | _ => [::]
  end.

(** The affine map onto the triangle (1,1), (3,7), (0,0): the Jacobian has
    the columns (1,1), (3,7) and determinant 4, so its inverse has the rows
    (7/4, -3/4), (-1/4, 1/4), all of them doubles. *)
Definition trafo_1_1_3_7 : ElementTransformation :=
  mkTrafo
    (fun ip => ((Coord ip).1 + 3 * (Coord ip).2,
                (Coord ip).1 + 7 * (Coord ip).2))
    (fun _ => [:: [:: 1.75; -0.75]; [:: -0.25; 0.25]])
    (fun _ => 4).

(** The affine map onto the triangle (1,0), (3,4), (0,0): columns (1,0),
    (3,4), determinant 4, inverse with rows (1, -3/4), (0, 1/4). *)
Definition trafo_1_0_3_4 : ElementTransformation :=
  mkTrafo
    (fun ip => ((Coord ip).1 + 3 * (Coord ip).2, 4 * (Coord ip).2))
    (fun _ => [:: [:: 1; -0.75]; [:: 0; 0.25]])
    (fun _ => 4).

(** The affine map onto the triangle (2,0), (0,1), (0,0), of measure 2. *)
Definition trafo_2_0_0_1 : ElementTransformation :=
  mkTrafo
    (fun ip => (2 * (Coord ip).1, (Coord ip).2))
    (fun _ => [:: [:: 0.5; 0]; [:: 0; 1]])
    (fun _ => 2).

Definition constant_coefficient (c : float) : CoefficientFunction :=
  mkCF (fun _ => c).

Definition scale_coefficient (c : float) (f : CoefficientFunction)
    : CoefficientFunction :=
  mkCF (fun mip => c * Evaluate f mip).

Definition zero_buffer : Matrix :=
  [:: [:: 0; 0; 0]; [:: 0; 0; 0]; [:: 0; 0; 0]].

(** The stiffness matrix computed for the triangle (1,1), (3,7), (0,0) and
    the one computed for the triangle (1,0), (3,4), (0,0), with lambda = 1. *)
Definition elmat_1_1_3_7 : Matrix :=
  (CalcElementMatrix sample_rule (mkLaplace (constant_coefficient 1))
     (MyElement (MyLinearTrig sample_trig)) trafo_1_1_3_7 zero_buffer tt).2.

Definition elmat_1_0_3_4 : Matrix :=
  (CalcElementMatrix sample_rule (mkLaplace (constant_coefficient 1))
     (MyElement (MyLinearTrig sample_trig)) trafo_1_0_3_4 zero_buffer tt).2.

(** The load vector computed for the triangle (2,0), (0,1), (0,0) with a
    given coefficient. *)
Definition elvec_2_0_0_1 (f : CoefficientFunction) : Vector :=
  (CalcElementVector sample_rule (mkSource f)
     (MyElement (MyLinearTrig sample_trig)) trafo_2_0_0_1 [:: 0; 0; 0] tt).2.

(** The value of a finite double, times [2^1100], as an integer: every
    finite double is an integer multiple of [2^-1074]. *)
Definition scaled_value (x : float) : Z :=
  match Prim2SF x with
  | S754_finite s m e =>
      let v := (Z.pos m * 2 ^ (e + 1100))%Z in if s then (- v)%Z else v
  | _ => 0%Z
  end.

Definition finite (x : float) : bool :=
  match Prim2SF x with
  | S754_finite _ _ _ | S754_zero _ => true
  | _ => false
  end.

(** The exact sum of the entries of a matrix, times [2^1100]: the quadratic
    form of the matrix at the vector of ones. *)
Definition scaled_sum_of_entries (A : Matrix) : Z :=
  foldl Z.add 0%Z [seq scaled_value a | a <- flatten A].

(** ** What the exact statements become in binary64 *)

Example elmat_1_1_3_7_value :
  elmat_1_1_3_7
  = [:: [:: 7.25; -1.25; -0x1.7ffffffffffffp+2];
        [:: -1.25; 0.25; 1];
        [:: -6; 1; 5]].
Proof. by vm_compute. Qed.

(** The matrix computed for the triangle (1,1), (3,7), (0,0) is not the
    classical one: entry (0,2) of the classical matrix is
    e_0 . e_2 / (4 * area) = -48 / 8 = -6, the computed entry is the next
    double above -6. *)
Lemma stiffness_not_classical :
  ((P1_stiffness (1, 1) (3, 7) (0, 0) : 'M[rat]_3) 0 2%:R = - 6%:R)%R
  /\ entry elmat_1_1_3_7 0 2 = -0x1.7ffffffffffffp+2
  /\ (-6 <? entry elmat_1_1_3_7 0 2) = true.
Proof. by split; [exact: classical_entry_1_1_3_7 | vm_compute]. Qed.

(** The matrix computed for the triangle (1,1), (3,7), (0,0) is not
    symmetric: entries (0,2) and (2,0) differ. *)
Lemma not_symmetric :
  entry elmat_1_1_3_7 0 2 = -0x1.7ffffffffffffp+2
  /\ entry elmat_1_1_3_7 2 0 = -6
  /\ (entry elmat_1_1_3_7 0 2 =? entry elmat_1_1_3_7 2 0) = false.
Proof. by vm_compute. Qed.

(** The matrix computed for the triangle (1,0), (3,4), (0,0), with
    lambda = 1 and positive weights and measure, is not positive
    semi-definite: its entries are finite and their exact sum, the
    quadratic form at the vector of ones, is negative. *)
Lemma not_positive_semidefinite :
  all finite (flatten elmat_1_0_3_4)
  /\ (scaled_sum_of_entries elmat_1_0_3_4 <? 0)%Z = true.
Proof. by vm_compute. Qed.

(** The double nearest to 0.1. *)
Definition tenth : float := 0x1.999999999999ap-4.

(** With c = f = 0.1 on the triangle (2,0), (0,1), (0,0), the vector
    computed with the coefficient c * f has first entry
    0.003333333333333334, and c times the vector computed with f has
    0.0033333333333333335. *)
Lemma scaling_not_exact :
  nth 0 (elvec_2_0_0_1
           (scale_coefficient tenth (constant_coefficient tenth))) 0
  = 0x1.b4e81b4e81b50p-9
  /\ tenth * nth 0 (elvec_2_0_0_1 (constant_coefficient tenth)) 0
     = 0x1.b4e81b4e81b4fp-9
  /\ (nth 0 (elvec_2_0_0_1
               (scale_coefficient tenth (constant_coefficient tenth))) 0
      =? tenth * nth 0 (elvec_2_0_0_1 (constant_coefficient tenth)) 0)
     = false.
Proof. by vm_compute. Qed.

End Double.
